(** * SDL-Rendering: the three tutorial programs and their resource discipline

    The repository holds three versions of one SDL2 tutorial program:

    - [Part000]  (src/unnamed/part_000): one texture, all calls inline in [main];
    - [SdlTest]  (src/sdl-test/main.cpp): the same [main], with the helpers
      [LogSDLError] and [loadTexture] defined next to it;
    - [Part001]  (src/unnamed/part_001): two textures, loaded through
      [loadTexture] and drawn through [RenderTexture].

    The programs are straight-line sequences of SDL calls with a null check
    after each acquisition.  They are embedded as computations in a small
    monad that threads the trace of library calls made so far; what the
    library answers is read from a [World], indexed by the number of calls
    already made, so that nothing is assumed about the library beyond the
    types of its answers. *)

From Stdlib Require Import ZArith List String Ascii Bool Lia.
Import ListNotations.
Local Open Scope Z_scope.
Local Open Scope list_scope.

(** ** Data model *)

(** SDL hands out opaque pointers.  A pointer is null ([None]) or the address
    of a live object ([Some h]). *)
Definition handle := nat.
Definition ptr := option handle.

Definition is_null (p : ptr) : bool :=
  match p with
  | None => true
  | Some _ => false
  end.

(** [SDL_Rect] has four [int] fields.  A local [SDL_Rect destination;] starts
    with every field indeterminate; [None] stands for a field that has not
    been assigned. *)
Module SDL_Rect.
Record t : Type := mk { x : option Z; y : option Z; w : option Z; h : option Z }.

Definition uninitialized : t := mk None None None None.

Definition set_x (v : Z) (r : t) : t := mk (Some v) (y r) (w r) (h r).
Definition set_y (v : Z) (r : t) : t := mk (x r) (Some v) (w r) (h r).
Definition set_w (v : Z) (r : t) : t := mk (x r) (y r) (Some v) (h r).
Definition set_h (v : Z) (r : t) : t := mk (x r) (y r) (w r) (Some v).
End SDL_Rect.

Inductive ostream : Type := cout | cerr.

(** One entry per library call (and per completed output statement), with the
    arguments passed and the answer received. *)
Inductive Event : Type :=
| EvInit (flags : Z) (result : Z)
| EvQuit
| EvCreateWindow (title : string) (x y w h : Z) (flags : Z) (result : ptr)
| EvCreateRenderer (window : ptr) (index : Z) (flags : Z) (result : ptr)
| EvLoadBMP (file : string) (result : ptr)
| EvCreateTextureFromSurface (renderer surface : ptr) (result : ptr)
| EvFreeSurface (surface : ptr)
| EvQueryTexture (texture : ptr) (result : option (Z * Z))
| EvRenderClear (renderer : ptr)
| EvRenderCopy (renderer texture : ptr) (srcrect dstrect : option SDL_Rect.t)
| EvRenderPresent (renderer : ptr)
| EvDelay (ms : Z)
| EvDestroyTexture (texture : ptr)
| EvDestroyRenderer (renderer : ptr)
| EvDestroyWindow (window : ptr)
| EvGetError (result : string)
| EvWrite (os : ostream) (text : string).

Definition Trace := list Event.

(** The library's answers.  The first argument of every field is the number
    of calls made before this one, so two calls with the same arguments may
    be answered differently. *)
Record World : Type := {
  answer_Init : nat -> Z -> Z;
  answer_CreateWindow : nat -> string -> Z -> Z -> Z -> Z -> Z -> ptr;
  answer_CreateRenderer : nat -> ptr -> Z -> Z -> ptr;
  answer_LoadBMP : nat -> string -> ptr;
  answer_CreateTextureFromSurface : nat -> ptr -> ptr -> ptr;
  (* [Some (w, h)]: the query succeeds and reports these dimensions;
     [None]: it fails and stores nothing. *)
  answer_QueryTexture : nat -> ptr -> option (Z * Z);
  answer_GetError : nat -> string
}.

(** ** The monad of library calls *)

Definition SDL (A : Type) : Type := World -> Trace -> A * Trace.

Definition ret {A : Type} (a : A) : SDL A := fun _ tr => (a, tr).

Definition bind {A B : Type} (m : SDL A) (k : A -> SDL B) : SDL B :=
  fun wd tr => let (a, tr') := m wd tr in k a wd tr'.

Declare Scope sdl_scope.
Delimit Scope sdl_scope with sdl.
Notation "v <- m ;; k" := (bind m (fun v => k))
  (at level 100, m at next level, right associativity) : sdl_scope.
Notation "m ;; k" := (bind m (fun _ => k))
  (at level 100, right associativity) : sdl_scope.
Local Open Scope sdl_scope.

Definition ask {A : Type} (f : World -> nat -> A) : SDL A :=
  fun wd tr => (f wd (List.length tr), tr).

Definition emit (e : Event) : SDL unit :=
  fun _ tr => (tt, tr ++ [e]).

(** A program is run from the empty trace. *)
Definition run {A : Type} (m : SDL A) (wd : World) : A * Trace := m wd [].

(** ** The library calls *)

Definition SDL_Init (flags : Z) : SDL Z :=
  r <- ask (fun wd n => answer_Init wd n flags);;
  emit (EvInit flags r);;
  ret r.

Definition SDL_Quit : SDL unit := emit EvQuit.

Definition SDL_CreateWindow (title : string) (x y w h flags : Z) : SDL ptr :=
  p <- ask (fun wd n => answer_CreateWindow wd n title x y w h flags);;
  emit (EvCreateWindow title x y w h flags p);;
  ret p.

Definition SDL_CreateRenderer (window : ptr) (index flags : Z) : SDL ptr :=
  p <- ask (fun wd n => answer_CreateRenderer wd n window index flags);;
  emit (EvCreateRenderer window index flags p);;
  ret p.

Definition SDL_LoadBMP (file : string) : SDL ptr :=
  p <- ask (fun wd n => answer_LoadBMP wd n file);;
  emit (EvLoadBMP file p);;
  ret p.

Definition SDL_CreateTextureFromSurface (renderer surface : ptr) : SDL ptr :=
  p <- ask (fun wd n => answer_CreateTextureFromSurface wd n renderer surface);;
  emit (EvCreateTextureFromSurface renderer surface p);;
  ret p.

Definition SDL_FreeSurface (surface : ptr) : SDL unit :=
  emit (EvFreeSurface surface).

(** [SDL_QueryTexture(texture, NULL, NULL, pw, ph)].  The two out-pointers are
    given as the assignments they perform on the caller's variables [S]; on
    success the library stores the width through [pw], then the height
    through [ph], so that when both point to the same variable the height is
    what stays.  On failure nothing is stored.  The [int] result is dropped
    by every caller. *)
Definition store_dimensions {S : Type} (pw ph : Z -> S -> S)
    (answer : option (Z * Z)) (vars : S) : S :=
  match answer with
  | Some (tw, th) => ph th (pw tw vars)
  | None => vars
  end.

Definition SDL_QueryTexture {S : Type} (texture : ptr) (pw ph : Z -> S -> S)
    (vars : S) : SDL S :=
  q <- ask (fun wd n => answer_QueryTexture wd n texture);;
  emit (EvQueryTexture texture q);;
  ret (store_dimensions pw ph q vars).

Definition SDL_RenderClear (renderer : ptr) : SDL unit :=
  emit (EvRenderClear renderer).

Definition SDL_RenderCopy (renderer texture : ptr)
    (srcrect dstrect : option SDL_Rect.t) : SDL unit :=
  emit (EvRenderCopy renderer texture srcrect dstrect).

Definition SDL_RenderPresent (renderer : ptr) : SDL unit :=
  emit (EvRenderPresent renderer).

Definition SDL_Delay (ms : Z) : SDL unit := emit (EvDelay ms).

Definition SDL_DestroyTexture (texture : ptr) : SDL unit :=
  emit (EvDestroyTexture texture).

Definition SDL_DestroyRenderer (renderer : ptr) : SDL unit :=
  emit (EvDestroyRenderer renderer).

Definition SDL_DestroyWindow (window : ptr) : SDL unit :=
  emit (EvDestroyWindow window).

Definition SDL_GetError : SDL string :=
  e <- ask answer_GetError;;
  emit (EvGetError e);;
  ret e.

(** A statement [os << a << b << ... ;] is recorded once, with the text it
    appends to the stream. *)
Definition write (os : ostream) (text : string) : SDL unit :=
  emit (EvWrite os text).

(** ** Constants of the headers *)

Definition SDL_INIT_VIDEO : Z := 32.             (* 0x00000020 *)
Definition SDL_WINDOW_SHOWN : Z := 4.            (* 0x00000004 *)
Definition SDL_RENDERER_ACCELERATED : Z := 2.    (* 0x00000002 *)
Definition SDL_RENDERER_PRESENTVSYNC : Z := 4.   (* 0x00000004 *)
Definition EXIT_SUCCESS : Z := 0.
Definition EXIT_FAILURE : Z := 1.

Definition endl : string := String "010" EmptyString.   (* '\n' *)

(** ** [int] arithmetic *)

Definition int_min : Z := - 2 ^ 31.
Definition int_max : Z := 2 ^ 31 - 1.

Definition wrap_int (z : Z) : Z := (z + 2 ^ 31) mod 2 ^ 32 - 2 ^ 31.

(* [a / b] on [int]: the quotient is truncated towards zero. *)
Definition int_div (a b : Z) : Z := wrap_int (Z.quot a b).
Definition int_sub (a b : Z) : Z := wrap_int (a - b).

(** ** [for (auto i = lo; i < hi; ++i) body]

    The body never assigns [i], so the loop runs [hi - lo] times (none when
    [hi <= lo]). *)
Fixpoint iterate (n : nat) (i : Z) (body : Z -> SDL unit) : SDL unit :=
  match n with
  | O => ret tt
  | S n' => body i;; iterate n' (i + 1) body
  end.

Definition for_lt (lo hi : Z) (body : Z -> SDL unit) : SDL unit :=
  iterate (Z.to_nat (hi - lo)) lo body.

(** ** src/unnamed/part_000 *)

Module Part000.

Definition main (argc : Z) (argv : list string) : SDL Z :=
  r <- SDL_Init SDL_INIT_VIDEO;;
  if negb (r =? 0) then
    e <- SDL_GetError;;
    write cout ("SDL_Init Error: " ++ e ++ endl)%string;;
    ret EXIT_FAILURE
  else
  mainWindow <- SDL_CreateWindow "Hello, World!" 100 100 640 480 SDL_WINDOW_SHOWN;;
  if is_null mainWindow then
    e <- SDL_GetError;;
    write cout ("SDL_CreateWindow Error: " ++ e ++ endl)%string;;
    SDL_Quit;;
    ret EXIT_FAILURE
  else
  renderer <- SDL_CreateRenderer mainWindow (-1)
                (Z.lor SDL_RENDERER_ACCELERATED SDL_RENDERER_PRESENTVSYNC);;
  if is_null renderer then
    SDL_DestroyWindow mainWindow;;
    e <- SDL_GetError;;
    write cout ("SDL_CreateRenderer Error: " ++ e ++ endl)%string;;
    SDL_Quit;;
    ret EXIT_FAILURE
  else
  let imagePath := "C:/Users/jflop/Downloads/swirl_effect.bmp"%string in
  bmp <- SDL_LoadBMP imagePath;;
  if is_null bmp then
    SDL_DestroyRenderer renderer;;
    SDL_DestroyWindow mainWindow;;
    e <- SDL_GetError;;
    write cout ("SDL_LoadBMP Error: " ++ e ++ endl)%string;;
    SDL_Quit;;
    ret EXIT_FAILURE
  else
  texture <- SDL_CreateTextureFromSurface renderer bmp;;
  SDL_FreeSurface bmp;;
  if is_null texture then
    SDL_DestroyRenderer renderer;;
    SDL_DestroyWindow mainWindow;;
    e <- SDL_GetError;;
    write cout ("SDL_CreateTextureFromSurface Error: " ++ e ++ endl)%string;;
    SDL_Quit;;
    ret EXIT_FAILURE
  else
  for_lt 0 3 (fun i =>
    SDL_RenderClear renderer;;
    SDL_RenderCopy renderer texture None None;;
    SDL_RenderPresent renderer;;
    SDL_Delay 1000);;
  SDL_DestroyTexture texture;;
  SDL_DestroyRenderer renderer;;
  SDL_DestroyWindow mainWindow;;
  SDL_Quit;;
  ret EXIT_SUCCESS.

End Part000.

(** ** src/sdl-test/main.cpp *)

Module SdlTest.

Definition SCREEN_WIDTH : Z := 640.
Definition SCREEN_HEIGHT : Z := 480.

Definition LogSDLError (os : ostream) (errorMessage : string) : SDL unit :=
  e <- SDL_GetError;;
  write os (errorMessage ++ " error: " ++ e ++ endl)%string.

Definition loadTexture (filename : string) (renderer : ptr) : SDL ptr :=
  let texture : ptr := None in
  loadedImage <- SDL_LoadBMP filename;;
  texture <-
    (if negb (is_null loadedImage) then
       texture <- SDL_CreateTextureFromSurface renderer loadedImage;;
       SDL_FreeSurface loadedImage;;
       (if is_null texture then LogSDLError cerr "LoadBMP" else ret tt);;
       ret texture
     else
       LogSDLError cerr "LoadBMP";;
       ret texture);;
  ret texture.

Definition main (argc : Z) (argv : list string) : SDL Z :=
  r <- SDL_Init SDL_INIT_VIDEO;;
  if negb (r =? 0) then
    e <- SDL_GetError;;
    write cout ("SDL_Init Error: " ++ e ++ endl)%string;;
    ret EXIT_FAILURE
  else
  mainWindow <- SDL_CreateWindow "Hello, World!" 100 100 640 480 SDL_WINDOW_SHOWN;;
  if is_null mainWindow then
    e <- SDL_GetError;;
    write cout ("SDL_CreateWindow Error: " ++ e ++ endl)%string;;
    SDL_Quit;;
    ret EXIT_FAILURE
  else
  renderer <- SDL_CreateRenderer mainWindow (-1)
                (Z.lor SDL_RENDERER_ACCELERATED SDL_RENDERER_PRESENTVSYNC);;
  if is_null renderer then
    SDL_DestroyWindow mainWindow;;
    e <- SDL_GetError;;
    write cout ("SDL_CreateRenderer Error: " ++ e ++ endl)%string;;
    SDL_Quit;;
    ret EXIT_FAILURE
  else
  let imagePath := "C:/Users/jflop/Downloads/swirl_effect.bmp"%string in
  bmp <- SDL_LoadBMP imagePath;;
  if is_null bmp then
    SDL_DestroyRenderer renderer;;
    SDL_DestroyWindow mainWindow;;
    e <- SDL_GetError;;
    write cout ("SDL_LoadBMP Error: " ++ e ++ endl)%string;;
    SDL_Quit;;
    ret EXIT_FAILURE
  else
  texture <- SDL_CreateTextureFromSurface renderer bmp;;
  SDL_FreeSurface bmp;;
  if is_null texture then
    SDL_DestroyRenderer renderer;;
    SDL_DestroyWindow mainWindow;;
    e <- SDL_GetError;;
    write cout ("SDL_CreateTextureFromSurface Error: " ++ e ++ endl)%string;;
    SDL_Quit;;
    ret EXIT_FAILURE
  else
  for_lt 0 3 (fun i =>
    SDL_RenderClear renderer;;
    SDL_RenderCopy renderer texture None None;;
    SDL_RenderPresent renderer;;
    SDL_Delay 1000);;
  SDL_DestroyTexture texture;;
  SDL_DestroyRenderer renderer;;
  SDL_DestroyWindow mainWindow;;
  SDL_Quit;;
  ret EXIT_SUCCESS.

End SdlTest.

(** ** src/unnamed/part_001 *)

Module Part001.

Definition SCREEN_WIDTH : Z := 640.
Definition SCREEN_HEIGHT : Z := 480.

Definition LogSDLError (os : ostream) (errorMessage : string) : SDL unit :=
  e <- SDL_GetError;;
  write os (errorMessage ++ " error: " ++ e ++ endl)%string.

Definition loadTexture (filename : string) (renderer : ptr) : SDL ptr :=
  let texture : ptr := None in
  loadedImage <- SDL_LoadBMP filename;;
  texture <-
    (if negb (is_null loadedImage) then
       texture <- SDL_CreateTextureFromSurface renderer loadedImage;;
       SDL_FreeSurface loadedImage;;
       (if is_null texture then LogSDLError cerr "LoadBMP" else ret tt);;
       ret texture
     else
       LogSDLError cerr "LoadBMP";;
       ret texture);;
  ret texture.

(* [destination.x] is assigned [x], then handed to the query as the place
   for the height; [destination.h] is not assigned anywhere. *)
Definition RenderTexture (texture renderer : ptr) (x y : Z) : SDL unit :=
  let destination := SDL_Rect.uninitialized in
  let destination := SDL_Rect.set_x x destination in
  let destination := SDL_Rect.set_y y destination in
  destination <- SDL_QueryTexture texture SDL_Rect.set_w SDL_Rect.set_x destination;;
  SDL_RenderCopy renderer texture None (Some destination).

(* Two [int] locals, written through [&first] and [&second]. *)
Definition set_first (v : Z) (vars : Z * Z) : Z * Z := (v, snd vars).
Definition set_second (v : Z) (vars : Z * Z) : Z * Z := (fst vars, v).

(* Lines 178-179: the position handed to [RenderTexture] for the foreground. *)
Definition foreground_position (iW iH : Z) : Z * Z :=
  let x := int_sub (int_div SCREEN_WIDTH 2) (int_div iW 2) in
  let y := int_sub (int_div SCREEN_HEIGHT 2) (int_div iH 2) in
  (x, y).

(* The body of the frame loop, lines 161-184. *)
Definition frame (background foreground renderer : ptr) (i : Z) : SDL unit :=
  SDL_RenderClear renderer;;
  let bW := 0 in
  let bH := 0 in
  (* SDL_QueryTexture(background, NULL, NULL, &bW, &bW) *)
  b <- SDL_QueryTexture background set_first set_first (bW, bH);;
  let bW := fst b in
  let bH := snd b in
  RenderTexture background renderer 0 0;;
  RenderTexture background renderer bW 0;;
  RenderTexture background renderer 0 bH;;
  RenderTexture background renderer bW bH;;
  let iW := 0 in
  let iH := 0 in
  f <- SDL_QueryTexture foreground set_first set_second (iW, iH);;
  let iW := fst f in
  let iH := snd f in
  let x := fst (foreground_position iW iH) in
  let y := snd (foreground_position iW iH) in
  RenderTexture foreground renderer x y;;
  SDL_RenderPresent renderer;;
  SDL_Delay 1000.

Definition background_bmp : string :=
  "C:\Users\jflop\source\repos\sdl-test\sdl-test\img\background.bmp".
Definition foreground_bmp : string :=
  "C:\Users\jflop\source\repos\sdl-test\sdl-test\img\foreground.bmp".

Definition main (argc : Z) (argv : list string) : SDL Z :=
  r <- SDL_Init SDL_INIT_VIDEO;;
  if negb (r =? 0) then
    LogSDLError cerr "SDL_Init";;
    ret EXIT_FAILURE
  else
  mainWindow <- SDL_CreateWindow "Hello, World!" 100 100
                  SCREEN_WIDTH SCREEN_HEIGHT SDL_WINDOW_SHOWN;;
  if is_null mainWindow then
    LogSDLError cerr "CreateWindow";;
    SDL_Quit;;
    ret EXIT_FAILURE
  else
  renderer <- SDL_CreateRenderer mainWindow (-1)
                (Z.lor SDL_RENDERER_ACCELERATED SDL_RENDERER_PRESENTVSYNC);;
  if is_null renderer then
    SDL_DestroyWindow mainWindow;;
    LogSDLError cerr "CreateRenderer";;
    SDL_Quit;;
    ret EXIT_FAILURE
  else
  background <- loadTexture background_bmp renderer;;
  foreground <- loadTexture foreground_bmp renderer;;
  if is_null background || is_null foreground then
    SDL_DestroyRenderer renderer;;
    SDL_DestroyWindow mainWindow;;
    LogSDLError cerr "LoadTexture";;
    SDL_Quit;;
    ret EXIT_FAILURE
  else
  for_lt 0 3 (frame background foreground renderer);;
  SDL_DestroyTexture background;;
  SDL_DestroyTexture foreground;;
  SDL_DestroyRenderer renderer;;
  SDL_DestroyWindow mainWindow;;
  SDL_Quit;;
  ret EXIT_SUCCESS.

End Part001.

(** The three programs. *)
Inductive Program : Type := part_000 | sdl_test | part_001.

Definition main_of (p : Program) : Z -> list string -> SDL Z :=
  match p with
  | part_000 => Part000.main
  | sdl_test => SdlTest.main
  | part_001 => Part001.main
  end.

(** ** Worlds used as examples *)

(* Handles are numbered by the position of the call that creates them. *)
Definition world_with (init : Z) (window renderer : bool)
    (decodes : string -> bool) (uploads : bool) (dims : Z * Z) : World :=
  {| answer_Init := fun _ _ => init;
     answer_CreateWindow := fun n _ _ _ _ _ _ => if window then Some n else None;
     answer_CreateRenderer := fun n _ _ _ => if renderer then Some n else None;
     answer_LoadBMP := fun n file => if decodes file then Some n else None;
     answer_CreateTextureFromSurface := fun n _ _ => if uploads then Some n else None;
     answer_QueryTexture := fun _ _ => Some dims;
     answer_GetError := fun _ => "no such file"%string |}.

Definition world_ok : World :=
  world_with 0 true true (fun _ => true) true (64, 48).

Definition world_init_fails : World :=
  world_with (-1) true true (fun _ => true) true (64, 48).

Definition world_no_renderer : World :=
  world_with 0 true false (fun _ => true) true (64, 48).

Definition world_no_images : World :=
  world_with 0 true true (fun _ => false) true (64, 48).

Definition world_no_background : World :=
  world_with 0 true true (fun f => negb (String.eqb f Part001.background_bmp)) true (64, 48).

Definition world_no_foreground : World :=
  world_with 0 true true (fun f => negb (String.eqb f Part001.foreground_bmp)) true (64, 48).

Definition world_no_upload : World :=
  world_with 0 true true (fun _ => true) false (64, 48).

(** ** Observations on traces *)

Definition status_of (p : Program) (argc : Z) (argv : list string) (wd : World) : Z :=
  fst (run (main_of p argc argv) wd).

Definition trace_of (p : Program) (argc : Z) (argv : list string) (wd : World) : Trace :=
  snd (run (main_of p argc argv) wd).

(** *** Resources and their discipline *)

Inductive Kind : Type := Session | Window | Renderer | Surface | Texture.

Definition Resource : Type := (Kind * handle)%type.

Definition kind_eqb (a b : Kind) : bool :=
  match a, b with
  | Session, Session | Window, Window | Renderer, Renderer
  | Surface, Surface | Texture, Texture => true
  | _, _ => false
  end.

Definition resource_eqb (a b : Resource) : bool :=
  kind_eqb (fst a) (fst b) && Nat.eqb (snd a) (snd b).

(* The video session has no pointer of its own. *)
Definition the_session : Resource := (Session, O).

Definition held_now (r : Resource) (held : list Resource) : bool :=
  existsb (resource_eqb r) held.

(* Release wherever the resource sits among those held. *)
Fixpoint release_any (r : Resource) (held : list Resource) : option (list Resource) :=
  match held with
  | [] => None
  | r' :: rest =>
      if resource_eqb r r' then Some rest
      else match release_any r rest with
           | Some rest' => Some (r' :: rest')
           | None => None
           end
  end.

(* Release only what was acquired last. *)
Definition release_last (r : Resource) (held : list Resource) : option (list Resource) :=
  match held with
  | [] => None
  | r' :: rest => if resource_eqb r r' then Some rest else None
  end.

Definition acquire (k : Kind) (p : ptr) (held : list Resource) : list Resource :=
  match p with
  | Some a => (k, a) :: held
  | None => held
  end.

Definition usable (k : Kind) (p : ptr) (held : list Resource) : bool :=
  match p with
  | Some a => held_now (k, a) held
  | None => false
  end.

Definition release_ptr (release : Resource -> list Resource -> option (list Resource))
    (k : Kind) (p : ptr) (held : list Resource) : option (list Resource) :=
  match p with
  | Some a => release (k, a) held
  | None => None
  end.

Definition when (b : bool) (held : list Resource) : option (list Resource) :=
  if b then Some held else None.

(** One call against the resources held: a call that takes a handle needs it
    held (created with success and not released since), a successful creation
    adds its handle in front, a release removes its handle as [release]
    allows.  [None] is a violation. *)
Definition discipline_step
    (release : Resource -> list Resource -> option (list Resource))
    (held : list Resource) (e : Event) : option (list Resource) :=
  match e with
  | EvInit _ r => if r =? 0 then Some (the_session :: held) else Some held
  | EvQuit => release the_session held
  | EvCreateWindow _ _ _ _ _ _ p =>
      when (held_now the_session held) (acquire Window p held)
  | EvCreateRenderer window _ _ p =>
      when (usable Window window held) (acquire Renderer p held)
  | EvLoadBMP _ p => Some (acquire Surface p held)
  | EvCreateTextureFromSurface renderer surface p =>
      when (usable Renderer renderer held && usable Surface surface held)
           (acquire Texture p held)
  | EvFreeSurface surface => release_ptr release Surface surface held
  | EvQueryTexture texture _ => when (usable Texture texture held) held
  | EvRenderClear renderer => when (usable Renderer renderer held) held
  | EvRenderCopy renderer texture _ _ =>
      when (usable Renderer renderer held && usable Texture texture held) held
  | EvRenderPresent renderer => when (usable Renderer renderer held) held
  | EvDelay _ => Some held
  | EvDestroyTexture texture => release_ptr release Texture texture held
  | EvDestroyRenderer renderer => release_ptr release Renderer renderer held
  | EvDestroyWindow window => release_ptr release Window window held
  | EvGetError _ => Some held
  | EvWrite _ _ => Some held
  end.

Fixpoint discipline (release : Resource -> list Resource -> option (list Resource))
    (held : list Resource) (tr : Trace) : option (list Resource) :=
  match tr with
  | [] => Some held
  | e :: tr' =>
      match discipline_step release held e with
      | Some held' => discipline release held' tr'
      | None => None
      end
  end.

(* What is still held at exit, when every use and release was of a held handle. *)
Definition held_at_exit (tr : Trace) : option (list Resource) :=
  discipline release_any [] tr.

(* The same, with releases in exact reverse order of acquisition. *)
Definition held_at_exit_lifo (tr : Trace) : option (list Resource) :=
  discipline release_last [] tr.

(* Order of acquisition of the long-lived kinds; image buffers are apart. *)
Definition kind_rank (k : Kind) : option nat :=
  match k with
  | Session => Some 0%nat
  | Window => Some 1%nat
  | Renderer => Some 2%nat
  | Texture => Some 3%nat
  | Surface => None
  end.

Definition acquired_kind (e : Event) : option Kind :=
  match e with
  | EvInit _ r => if r =? 0 then Some Session else None
  | EvCreateWindow _ _ _ _ _ _ (Some _) => Some Window
  | EvCreateRenderer _ _ _ (Some _) => Some Renderer
  | EvLoadBMP _ (Some _) => Some Surface
  | EvCreateTextureFromSurface _ _ (Some _) => Some Texture
  | _ => None
  end.

Definition released_kind (e : Event) : option Kind :=
  match e with
  | EvQuit => Some Session
  | EvDestroyWindow _ => Some Window
  | EvDestroyRenderer _ => Some Renderer
  | EvFreeSurface _ => Some Surface
  | EvDestroyTexture _ => Some Texture
  | _ => None
  end.

Fixpoint ranks (kind_of : Event -> option Kind) (tr : Trace) : list nat :=
  match tr with
  | [] => []
  | e :: tr' =>
      match kind_of e with
      | Some k =>
          match kind_rank k with
          | Some n => n :: ranks kind_of tr'
          | None => ranks kind_of tr'
          end
      | None => ranks kind_of tr'
      end
  end.

Fixpoint ascending (l : list nat) : bool :=
  match l with
  | a :: (b :: _) as rest => Nat.leb a b && ascending rest
  | _ => true
  end.

Fixpoint descending (l : list nat) : bool :=
  match l with
  | a :: (b :: _) as rest => Nat.leb b a && descending rest
  | _ => true
  end.

(* Every decoded buffer is uploaded by the next call and freed by the one after. *)
Fixpoint buffers_transient (tr : Trace) : Prop :=
  match tr with
  | [] => True
  | EvLoadBMP _ (Some s) :: rest =>
      match rest with
      | EvCreateTextureFromSurface _ uploaded _ :: EvFreeSurface freed :: rest' =>
          uploaded = Some s /\ freed = Some s /\ buffers_transient rest'
      | _ => False
      end
  | _ :: rest => buffers_transient rest
  end.

Fixpoint created_textures (tr : Trace) : list ptr :=
  match tr with
  | [] => []
  | EvCreateTextureFromSurface _ _ (Some t) :: tr' => Some t :: created_textures tr'
  | _ :: tr' => created_textures tr'
  end.

Fixpoint destroyed_textures (tr : Trace) : list ptr :=
  match tr with
  | [] => []
  | EvDestroyTexture t :: tr' => t :: destroyed_textures tr'
  | _ :: tr' => destroyed_textures tr'
  end.

Fixpoint destroyed_windows (tr : Trace) : list ptr :=
  match tr with
  | [] => []
  | EvDestroyWindow p :: tr' => p :: destroyed_windows tr'
  | _ :: tr' => destroyed_windows tr'
  end.

Definition is_texture (r : Resource) : bool := kind_eqb (fst r) Texture.

(** *** Failures, uploads and rendering *)

Definition decode_failure (e : Event) : bool :=
  match e with
  | EvLoadBMP _ None => true
  | _ => false
  end.

Definition decode_failed (tr : Trace) : bool := existsb decode_failure tr.

(* Is some texture-upload call made after a decode has failed? *)
Fixpoint upload_after_failed_decode (failed : bool) (tr : Trace) : bool :=
  match tr with
  | [] => false
  | EvLoadBMP _ None :: tr' => upload_after_failed_decode true tr'
  | EvCreateTextureFromSurface _ _ _ :: tr' =>
      failed || upload_after_failed_decode failed tr'
  | _ :: tr' => upload_after_failed_decode failed tr'
  end.

Fixpoint decodes (tr : Trace) : list (string * ptr) :=
  match tr with
  | [] => []
  | EvLoadBMP file p :: tr' => (file, p) :: decodes tr'
  | _ :: tr' => decodes tr'
  end.

(* The buffers handed to the texture-upload call, in order. *)
Fixpoint uploads (tr : Trace) : list ptr :=
  match tr with
  | [] => []
  | EvCreateTextureFromSurface _ surface _ :: tr' => surface :: uploads tr'
  | _ :: tr' => uploads tr'
  end.

Definition is_rendering (e : Event) : bool :=
  match e with
  | EvRenderClear _ | EvRenderCopy _ _ _ _ | EvRenderPresent _ => true
  | _ => false
  end.

Definition renders (tr : Trace) : bool := existsb is_rendering tr.

(* The window given to the first renderer creation that returned null. *)
Fixpoint window_of_failed_renderer (tr : Trace) : option ptr :=
  match tr with
  | [] => None
  | EvCreateRenderer window _ _ None :: _ => Some window
  | _ :: tr' => window_of_failed_renderer tr'
  end.

(* The result of the first successful window creation. *)
Fixpoint created_window (tr : Trace) : option handle :=
  match tr with
  | [] => None
  | EvCreateWindow _ _ _ _ _ _ (Some a) :: _ => Some a
  | _ :: tr' => created_window tr'
  end.

Definition acquisition_failure (e : Event) : bool :=
  match e with
  | EvInit _ r => negb (r =? 0)
  | EvCreateWindow _ _ _ _ _ _ None => true
  | EvCreateRenderer _ _ _ None => true
  | EvLoadBMP _ None => true
  | EvCreateTextureFromSurface _ _ None => true
  | _ => false
  end.

Definition all_acquired (tr : Trace) : bool :=
  forallb (fun e => negb (acquisition_failure e)) tr.

(** *** The frame loop as seen from outside *)

Inductive RenderOp : Type :=
| OpClear
| OpCopy
| OpPresent
| OpDelay (ms : Z).

Fixpoint render_ops (tr : Trace) : list RenderOp :=
  match tr with
  | [] => []
  | EvRenderClear _ :: tr' => OpClear :: render_ops tr'
  | EvRenderCopy _ _ _ _ :: tr' => OpCopy :: render_ops tr'
  | EvRenderPresent _ :: tr' => OpPresent :: render_ops tr'
  | EvDelay ms :: tr' => OpDelay ms :: render_ops tr'
  | _ :: tr' => render_ops tr'
  end.

(* One cycle: clear, [copies] copies, present, one second of pause. *)
Definition cycle (copies : nat) : list RenderOp :=
  OpClear :: repeat OpCopy copies ++ [OpPresent; OpDelay 1000].

Definition copies_per_frame (p : Program) : nat :=
  match p with
  | part_000 | sdl_test => 1%nat
  | part_001 => 5%nat
  end.

(* Where the copies of [texture] are placed: the x and y of each destination. *)
Fixpoint copy_origins (texture : ptr) (tr : Trace) : list (option Z * option Z) :=
  match tr with
  | [] => []
  | EvRenderCopy _ (Some t) _ (Some dst) :: tr' =>
      if match texture with Some t' => Nat.eqb t t' | None => false end
      then (SDL_Rect.x dst, SDL_Rect.y dst) :: copy_origins texture tr'
      else copy_origins texture tr'
  | _ :: tr' => copy_origins texture tr'
  end.

(* The four quadrant origins of a [tw] x [th] tile. *)
Definition quadrant_origins (tw th : Z) : list (option Z * option Z) :=
  [(Some 0, Some 0); (Some tw, Some 0); (Some 0, Some th); (Some tw, Some th)].

(** *** Diagnostics *)

(** Every output statement of the trace writes to [os] a line
    [operation ++ sep ++ e ++ endl], where [e] is what [SDL_GetError]
    returned in the call just before. *)
Fixpoint diagnostics_in_form (os : ostream) (sep : string)
    (last_error : option string) (tr : Trace) : Prop :=
  match tr with
  | [] => True
  | EvGetError e :: tr' => diagnostics_in_form os sep (Some e) tr'
  | EvWrite o text :: tr' =>
      o = os /\
      (exists operation e,
          last_error = Some e /\
          text = (operation ++ sep ++ e ++ endl)%string) /\
      diagnostics_in_form os sep None tr'
  | _ :: tr' => diagnostics_in_form os sep None tr'
  end.

Definition diagnostic_stream (p : Program) : ostream :=
  match p with
  | part_000 | sdl_test => cout
  | part_001 => cerr
  end.

Definition diagnostic_separator (p : Program) : string :=
  match p with
  | part_000 | sdl_test => " Error: "
  | part_001 => " error: "
  end.

(** *** What [loadTexture] owes its caller

    Started after the calls of [tr]: a failed decode is logged on [cerr] and
    null comes back; a decoded buffer is uploaded, then freed whatever the
    upload gave, and the upload's result comes back, a null one logged on
    [cerr] before that. *)
Definition loadTexture_contract (load : string -> ptr -> SDL ptr)
    (filename : string) (renderer : ptr) (wd : World) (tr : Trace) : Prop :=
  let n := List.length tr in
  match answer_LoadBMP wd n filename with
  | None =>
      let e := answer_GetError wd (1 + n) in
      load filename renderer wd tr =
        (None, tr ++ [EvLoadBMP filename None;
                      EvGetError e;
                      EvWrite cerr ("LoadBMP error: " ++ e ++ endl)%string])
  | Some s =>
      match answer_CreateTextureFromSurface wd (1 + n) renderer (Some s) with
      | Some t =>
          load filename renderer wd tr =
            (Some t, tr ++ [EvLoadBMP filename (Some s);
                            EvCreateTextureFromSurface renderer (Some s) (Some t);
                            EvFreeSurface (Some s)])
      | None =>
          let e := answer_GetError wd (3 + n) in
          load filename renderer wd tr =
            (None, tr ++ [EvLoadBMP filename (Some s);
                          EvCreateTextureFromSurface renderer (Some s) None;
                          EvFreeSurface (Some s);
                          EvGetError e;
                          EvWrite cerr ("LoadBMP error: " ++ e ++ endl)%string])
      end
  end.

(** *** Further observations *)

(* What the run has written, stream and text, in order. *)
Fixpoint written (tr : Trace) : list (ostream * string) :=
  match tr with
  | [] => []
  | EvWrite os text :: tr' => (os, text) :: written tr'
  | _ :: tr' => written tr'
  end.

Definition count_failures (tr : Trace) : nat :=
  List.length (filter acquisition_failure tr).

(* A failure inside the loading of an image: the decode or the upload. *)
Definition load_failure (e : Event) : bool :=
  match e with
  | EvLoadBMP _ None => true
  | EvCreateTextureFromSurface _ _ None => true
  | _ => false
  end.

Definition load_failed (tr : Trace) : bool := existsb load_failure tr.

Definition is_quit (e : Event) : bool :=
  match e with
  | EvQuit => true
  | _ => false
  end.

Definition quits (tr : Trace) : nat := List.length (filter is_quit tr).

(* Did the run start with a successful [SDL_Init]? *)
Definition initialised (tr : Trace) : bool :=
  match tr with
  | EvInit _ r :: _ => r =? 0
  | _ => false
  end.

Definition renderer_created (tr : Trace) : bool :=
  existsb (fun e => match e with
                    | EvCreateRenderer _ _ _ (Some _) => true
                    | _ => false
                    end) tr.

(* The image files of each program, in the order they are loaded. *)
Definition image_files (p : Program) : list string :=
  match p with
  | part_000 | sdl_test => ["C:/Users/jflop/Downloads/swirl_effect.bmp"%string]
  | part_001 => [Part001.background_bmp; Part001.foreground_bmp]
  end.

(* The y and h of the destination of every copy, in order; a copy without a
   destination rectangle gives [None]. *)
Fixpoint copy_y_h (tr : Trace) : list (option (option Z * option Z)) :=
  match tr with
  | [] => []
  | EvRenderCopy _ _ _ dst :: tr' =>
      match dst with
      | Some d => Some (SDL_Rect.y d, SDL_Rect.h d)
      | None => None
      end :: copy_y_h tr'
  | _ :: tr' => copy_y_h tr'
  end.

(* One frame of the two-texture program: four background copies, then the
   foreground at height [y]. *)
Definition frame_y_h (y : Z) : list (option (option Z * option Z)) :=
  [Some (Some 0, None); Some (Some 0, None); Some (Some 0, None);
   Some (Some 0, None); Some (Some y, None)].

(* The calls made from the first failed acquisition up to the [SDL_GetError]
   that follows it. *)
Fixpoint until_error_read (tr : Trace) : list Event :=
  match tr with
  | [] => []
  | EvGetError _ :: _ => []
  | e :: tr' => e :: until_error_read tr'
  end.

Fixpoint between_failure_and_report (tr : Trace) : list Event :=
  match tr with
  | [] => []
  | e :: tr' =>
      if acquisition_failure e then until_error_read tr'
      else between_failure_and_report tr'
  end.

Definition is_release (e : Event) : bool :=
  match released_kind e with
  | Some _ => true
  | None => false
  end.

(* The first acquisition that failed. *)
Fixpoint first_failure (tr : Trace) : option Event :=
  match tr with
  | [] => None
  | e :: tr' => if acquisition_failure e then Some e else first_failure tr'
  end.

Definition is_init_or_window (e : Event) : bool :=
  match e with
  | EvInit _ _ => true
  | EvCreateWindow _ _ _ _ _ _ _ => true
  | _ => false
  end.

(* Every call succeeds except the texture queries. *)
Definition world_query_fails : World :=
  {| answer_Init := fun _ _ => 0;
     answer_CreateWindow := fun n _ _ _ _ _ _ => Some n;
     answer_CreateRenderer := fun n _ _ _ => Some n;
     answer_LoadBMP := fun n _ => Some n;
     answer_CreateTextureFromSurface := fun n _ _ => Some n;
     answer_QueryTexture := fun _ _ => None;
     answer_GetError := fun _ => "invalid texture"%string |}.

(** ** Proof automation: running a program against an arbitrary world *)

(** A call is unfolded once it is given its world and the trace so far, so
    that simplification follows the path of the program and leaves alone the
    code that the path has not reached. *)
Arguments bind {A B} m k wd tr /.
Arguments ret {A} a wd tr /.
Arguments ask {A} f wd tr /.
Arguments emit e wd tr /.
Arguments write os text wd tr /.
Arguments run {A} m wd /.
Arguments for_lt lo hi body wd tr /.
Arguments SDL_Init flags wd tr /.
Arguments SDL_Quit wd tr /.
Arguments SDL_CreateWindow title x y w h flags wd tr /.
Arguments SDL_CreateRenderer window index flags wd tr /.
Arguments SDL_LoadBMP file wd tr /.
Arguments SDL_CreateTextureFromSurface renderer surface wd tr /.
Arguments SDL_FreeSurface surface wd tr /.
Arguments SDL_QueryTexture {S} texture pw ph vars wd tr /.
Arguments SDL_RenderClear renderer wd tr /.
Arguments SDL_RenderCopy renderer texture srcrect dstrect wd tr /.
Arguments SDL_RenderPresent renderer wd tr /.
Arguments SDL_Delay ms wd tr /.
Arguments SDL_DestroyTexture texture wd tr /.
Arguments SDL_DestroyRenderer renderer wd tr /.
Arguments SDL_DestroyWindow window wd tr /.
Arguments SDL_GetError wd tr /.
Arguments Part000.main argc argv wd tr /.
Arguments SdlTest.main argc argv wd tr /.
Arguments Part001.main argc argv wd tr /.
Arguments SdlTest.loadTexture filename renderer wd tr /.
Arguments Part001.loadTexture filename renderer wd tr /.
Arguments SdlTest.LogSDLError os errorMessage wd tr /.
Arguments Part001.LogSDLError os errorMessage wd tr /.
Arguments Part001.RenderTexture texture renderer x y wd tr /.
Arguments Part001.frame background foreground renderer i wd tr /.
Arguments store_dimensions : simpl never.
Arguments Part001.foreground_position : simpl never.

Ltac sdl_simpl := cbn; change (Pos.to_nat 3) with 3%nat; cbn.

(* Split on the next answer that decides a branch of the program. *)
Ltac branch :=
  match goal with
  | |- context [answer_Init ?wd ?n ?f] =>
      let r := fresh "r" in
      let E := fresh "Hinit" in
      generalize (answer_Init wd n f); intros r;
      destruct (r =? 0) eqn:E; [apply Z.eqb_eq in E; subst r | ]
  | |- context [answer_CreateWindow ?wd ?n ?t ?x ?y ?w ?h ?f] =>
      let p := fresh "mainWindow" in
      destruct (answer_CreateWindow wd n t x y w h f) as [p|]
  | |- context [answer_CreateRenderer ?wd ?n ?a ?b ?c] =>
      let p := fresh "renderer" in
      destruct (answer_CreateRenderer wd n a b c) as [p|]
  | |- context [answer_LoadBMP ?wd ?n ?a] =>
      let p := fresh "surface" in
      destruct (answer_LoadBMP wd n a) as [p|]
  | |- context [answer_CreateTextureFromSurface ?wd ?n ?a ?b] =>
      let p := fresh "texture" in
      destruct (answer_CreateTextureFromSurface wd n a b) as [p|]
  end.

(* Name the run, enumerate its paths, and put the explicit run back. *)
Ltac run_cases p argc argv wd :=
  let res := fresh "res" in
  let E := fresh "Hrun" in
  unfold status_of, trace_of;
  remember (run (main_of p argc argv) wd) as res eqn:E;
  revert E; destruct p;
  sdl_simpl; repeat (branch; sdl_simpl);
  intros E; subst res;
  cbn.

(* Decide the comparisons of handles that a check of the discipline meets. *)
Ltac handle_tests :=
  repeat (cbn;
          match goal with
          | |- context [Nat.eqb ?a ?a] => rewrite (Nat.eqb_refl a)
          | |- context [Nat.eqb ?a ?b] =>
              destruct (Nat.eqb_spec a b); [subst | ]
          | H : ?a <> ?a |- _ => exfalso; apply H; reflexivity
          end).

(* The operation named at the head of a diagnostic line. *)
Ltac name_operation :=
  first [ exists "SDL_Init"%string; eexists; split; reflexivity
        | exists "SDL_CreateWindow"%string; eexists; split; reflexivity
        | exists "SDL_CreateRenderer"%string; eexists; split; reflexivity
        | exists "SDL_LoadBMP"%string; eexists; split; reflexivity
        | exists "SDL_CreateTextureFromSurface"%string; eexists; split; reflexivity
        | exists "CreateWindow"%string; eexists; split; reflexivity
        | exists "CreateRenderer"%string; eexists; split; reflexivity
        | exists "LoadBMP"%string; eexists; split; reflexivity
        | exists "LoadTexture"%string; eexists; split; reflexivity ].

(** ** Arithmetic of [int] *)

Lemma wrap_int_id (z : Z) : int_min <= z <= int_max -> wrap_int z = z.
Proof.
  unfold wrap_int, int_min, int_max. intros H.
  rewrite Z.mod_small; lia.
Qed.

Lemma quot_2_bounds (a : Z) :
  int_min <= a <= int_max -> - 2 ^ 30 <= Z.quot a 2 <= 2 ^ 30 - 1.
Proof.
  unfold int_min, int_max. intros H.
  Z.quot_rem_to_equations. lia.
Qed.

Lemma length_snoc {A : Type} (l : list A) (a : A) :
  List.length (l ++ [a]) = S (List.length l).
Proof. rewrite length_app. cbn. lia. Qed.

(** ** The claims *)

(** C9. For every texture, renderer and position [(x, y)], when the query
    reports the dimensions [(tw, th)], [RenderTexture] hands [SDL_RenderCopy]
    a destination whose [x] is the queried height [th] and not the argument
    [x], whose [h] was never assigned, and whose [y] and [w] are the argument
    [y] and the queried width. *)
Theorem RenderTexture_destination (texture renderer : ptr) (x y : Z)
    (wd : World) (tr : Trace) (tw th : Z) :
  answer_QueryTexture wd (List.length tr) texture = Some (tw, th) ->
  Part001.RenderTexture texture renderer x y wd tr =
    (tt, tr ++ [EvQueryTexture texture (Some (tw, th));
                EvRenderCopy renderer texture None
                  (Some (SDL_Rect.mk (Some th) (Some y) (Some tw) None))]).
Proof.
  intros Hq. cbn. rewrite Hq. rewrite <- app_assoc. reflexivity.
Qed.

Lemma RenderTexture_destination_witness :
  Part001.RenderTexture (Some 4%nat) (Some 2%nat) 10 20 world_ok [] =
    (tt, [EvQueryTexture (Some 4%nat) (Some (64, 48));
          EvRenderCopy (Some 2%nat) (Some 4%nat) None
            (Some (SDL_Rect.mk (Some 48) (Some 20) (Some 64) None))]).
Proof.
  apply (RenderTexture_destination (Some 4%nat) (Some 2%nat) 10 20 world_ok [] 64 48).
  reflexivity.
Defined.

(** C10. For every two command lines the run is the same: the same exit
    status and the same calls and diagnostics, in each of the three
    programs. *)
Theorem command_line_not_consulted (p : Program) (argc1 argc2 : Z)
    (argv1 argv2 : list string) (wd : World) :
  run (main_of p argc1 argv1) wd = run (main_of p argc2 argv2) wd.
Proof. destruct p; reflexivity. Qed.

Lemma Part001_loadTexture_contract filename renderer wd tr :
  loadTexture_contract Part001.loadTexture filename renderer wd tr.
Proof.
  unfold loadTexture_contract. cbn.
  destruct (answer_LoadBMP wd (List.length tr) filename) as [s|]; cbn.
  - rewrite !length_snoc.
    destruct (answer_CreateTextureFromSurface wd _ renderer (Some s)) as [t|]; cbn.
    + rewrite <- !app_assoc. reflexivity.
    + rewrite !length_snoc, <- !app_assoc. reflexivity.
  - rewrite !length_snoc, <- !app_assoc. reflexivity.
Qed.

(** C5. For every file path and renderer, [loadTexture] (the one of
    part_001 and the one of main.cpp) reports an error and returns null when
    decoding fails; when decoding succeeds it uploads the buffer, frees it
    whether or not the upload succeeded, and returns the upload's result,
    reporting an error when that result is null. *)
Theorem loadTexture_contract_holds filename renderer wd tr :
  loadTexture_contract Part001.loadTexture filename renderer wd tr /\
  loadTexture_contract SdlTest.loadTexture filename renderer wd tr.
Proof.
  split; apply Part001_loadTexture_contract.
Qed.

(** C7. When renderer creation returns null for a window that was created
    with success, the program exits with the failure status and the window
    is destroyed exactly once. *)
Theorem window_released_when_renderer_fails p argc argv wd window :
  created_window (trace_of p argc argv wd) = Some window ->
  window_of_failed_renderer (trace_of p argc argv wd) = Some (Some window) ->
  status_of p argc argv wd = EXIT_FAILURE /\
  destroyed_windows (trace_of p argc argv wd) = [Some window].
Proof.
  run_cases p argc argv wd; intros Hw Hr; try discriminate.
  all: injection Hw as <-; split; reflexivity.
Qed.

Lemma window_released_when_renderer_fails_witness :
  status_of part_001 1 [] world_no_renderer = EXIT_FAILURE /\
  destroyed_windows (trace_of part_001 1 [] world_no_renderer) = [Some 1%nat].
Proof.
  apply (window_released_when_renderer_fails part_001 1 [] world_no_renderer 1%nat);
    reflexivity.
Defined.

(** C6. When every acquisition and every image load of the run succeeds,
    the program exits with success and what it does to the screen is exactly
    three cycles, each a clear, the copy or copies (one in the one-texture
    programs, five in the two-texture one), a present and a pause of 1000
    milliseconds, in that order. *)
Theorem three_cycles p argc argv wd :
  all_acquired (trace_of p argc argv wd) = true ->
  status_of p argc argv wd = EXIT_SUCCESS /\
  render_ops (trace_of p argc argv wd) =
    cycle (copies_per_frame p) ++ cycle (copies_per_frame p)
      ++ cycle (copies_per_frame p).
Proof.
  run_cases p argc argv wd; intros H; try rewrite Hinit in H; try discriminate.
  all: split; reflexivity.
Qed.

Lemma three_cycles_witness :
  status_of part_001 1 [] world_ok = EXIT_SUCCESS /\
  render_ops (trace_of part_001 1 [] world_ok) = cycle 5 ++ cycle 5 ++ cycle 5.
Proof.
  apply (three_cycles part_001 1 [] world_ok). reflexivity.
Defined.

(** C1, as stated, fails.  In the one-texture program with every call
    succeeding the image buffer is freed while the texture acquired after it
    is still held, so the releases are not in reverse order of acquisition
    (the same in the two-texture program); and when the background loads and
    the foreground does not, the two-texture program exits with the
    background texture never released. *)
Lemma not_released_in_reverse_order :
  held_at_exit_lifo (trace_of part_000 1 [] world_ok) = None /\
  held_at_exit_lifo (trace_of part_001 1 [] world_ok) = None /\
  held_at_exit (trace_of part_001 1 [] world_no_foreground)
  = Some [(Texture, 4%nat)].
Proof. vm_compute. repeat split. Qed.

(** C1, amended.  On every exit path of the three programs: every call that
    takes a handle is given one whose creation succeeded and that has not
    been released, so none is used early or released twice; the session, the
    window, the renderer and every image buffer that were acquired are
    released; the long-lived kinds are acquired in the order session,
    window, renderer, texture and released in the opposite order of kinds,
    while each image buffer is uploaded by the call after its decode and
    freed by the call after that.  In the one-texture programs, and in the
    two-texture program unless exactly one texture was created, nothing at
    all is held at exit and the textures are destroyed in the order of their
    creation. *)
Theorem handles_released p argc argv wd :
  match held_at_exit (trace_of p argc argv wd) with
  | None => False
  | Some held =>
      filter (fun r => negb (is_texture r)) held = [] /\
      ((p = part_001 ->
        List.length (created_textures (trace_of p argc argv wd)) <> 1%nat) ->
       held = [] /\
       destroyed_textures (trace_of p argc argv wd)
       = created_textures (trace_of p argc argv wd))
  end /\
  ascending (ranks acquired_kind (trace_of p argc argv wd)) = true /\
  descending (ranks released_kind (trace_of p argc argv wd)) = true /\
  buffers_transient (trace_of p argc argv wd).
Proof.
  unfold held_at_exit.
  run_cases p argc argv wd.
  all: try rewrite Hinit.
  all: handle_tests.
  all: repeat split.
  all: exfalso;
    match goal with H : _ -> _ <> _ |- _ => exact (H eq_refl eq_refl) end.
Qed.

(** C2, as stated, fails: in the two-texture program, when the background
    does not decode and the foreground does, the foreground is uploaded
    after the failed decode. *)
Lemma upload_after_failed_background_decode :
  decode_failed (trace_of part_001 1 [] world_no_background) = true /\
  upload_after_failed_decode false (trace_of part_001 1 [] world_no_background)
  = true.
Proof. vm_compute. split; reflexivity. Qed.

(** C2, amended.  Whenever an image decode fails, the program exits with the
    failure status and makes no clear, copy or present call; no upload
    follows the failed decode, except in the two-texture program when the
    background fails to decode and the foreground decodes: the foreground
    buffer is then the one upload of the run. *)
Theorem decode_failure_aborts p argc argv wd :
  decode_failed (trace_of p argc argv wd) = true ->
  status_of p argc argv wd = EXIT_FAILURE /\
  renders (trace_of p argc argv wd) = false /\
  (upload_after_failed_decode false (trace_of p argc argv wd) = false \/
   (p = part_001 /\
    exists s,
      decodes (trace_of p argc argv wd)
      = [(Part001.background_bmp, None); (Part001.foreground_bmp, Some s)] /\
      uploads (trace_of p argc argv wd) = [Some s])).
Proof.
  run_cases p argc argv wd; intros H; try discriminate.
  all: split; [reflexivity | split; [reflexivity | ]].
  all: first [ left; reflexivity
             | right; split; [reflexivity | eexists; split; reflexivity] ].
Qed.

Lemma decode_failure_aborts_witness :
  status_of part_001 1 [] world_no_images = EXIT_FAILURE /\
  renders (trace_of part_001 1 [] world_no_images) = false.
Proof.
  pose proof (decode_failure_aborts part_001 1 [] world_no_images eq_refl) as H.
  split; [exact (proj1 H) | exact (proj1 (proj2 H))].
Defined.

(** C3.  The two-texture program, every call succeeding, with a background
    of 64 by 48: the twelve background copies of the run (four in each of
    the three frames) are all placed at x = 48, y = 0, and not at the
    quadrant origins (0,0), (64,0), (0,48), (64,48). *)
Theorem background_copies_at_one_origin :
  copy_origins (Some 4%nat) (trace_of part_001 1 [] world_ok)
  = repeat (Some 48, Some 0) 12 /\
  copy_origins (Some 4%nat) (trace_of part_001 1 [] world_ok)
  <> quadrant_origins 64 48 ++ quadrant_origins 64 48 ++ quadrant_origins 64 48.
Proof. vm_compute. split; [reflexivity | discriminate]. Qed.

(** C8, as stated, fails: when [SDL_Init] fails, the one-texture program
    writes its diagnostic to the standard output, as "SDL_Init Error: ...". *)
Lemma diagnostic_on_cout :
  ~ diagnostics_in_form cerr " error: " None
      (trace_of part_000 1 [] world_init_fails).
Proof. cbn. intros [H _]. discriminate H. Qed.

(** C8, amended.  Every diagnostic is one line, the operation's name, a
    separator, the string [SDL_GetError] returned in the call just before,
    and a newline: on the standard error stream with the separator
    " error: " in the two-texture program, on the standard output with the
    separator " Error: " in the one-texture programs. *)
Theorem diagnostics_per_program p argc argv wd :
  diagnostics_in_form (diagnostic_stream p) (diagnostic_separator p) None
    (trace_of p argc argv wd).
Proof.
  run_cases p argc argv wd.
  all: repeat match goal with
       | |- _ /\ _ => split
       | |- True => exact I
       | |- _ = _ => reflexivity
       | |- exists _, _ => name_operation
       end.
Qed.

(** ** Further properties of the programs *)

(** X1. The exit status is EXIT_SUCCESS or EXIT_FAILURE; it is EXIT_SUCCESS
    exactly when every acquisition of the run succeeded, and the run makes a
    clear, copy or present call exactly then. *)
Theorem status_and_rendering p argc argv wd :
  (status_of p argc argv wd = EXIT_SUCCESS \/
   status_of p argc argv wd = EXIT_FAILURE) /\
  (status_of p argc argv wd =? EXIT_SUCCESS)
  = all_acquired (trace_of p argc argv wd) /\
  renders (trace_of p argc argv wd) = all_acquired (trace_of p argc argv wd).
Proof.
  run_cases p argc argv wd; try rewrite Hinit; cbn; auto.
Qed.

(** X2. A run whose [SDL_Init] succeeded calls [SDL_Quit] exactly once, as
    its last call; a run whose [SDL_Init] failed never calls it and consists
    of the failed call, the reading of the error and one output. *)
Theorem quit_once_and_last p argc argv wd :
  quits (trace_of p argc argv wd)
  = (if initialised (trace_of p argc argv wd) then 1%nat else 0%nat) /\
  (initialised (trace_of p argc argv wd) = true ->
   List.last (trace_of p argc argv wd) (EvDelay 0) = EvQuit) /\
  (initialised (trace_of p argc argv wd) = false ->
   exists r e os text,
     r <> 0 /\
     trace_of p argc argv wd
     = [EvInit SDL_INIT_VIDEO r; EvGetError e; EvWrite os text]).
Proof.
  run_cases p argc argv wd; try rewrite Hinit; cbn.
  all: repeat split; try discriminate; try reflexivity.
  all: intros _; do 4 eexists; split; [ | reflexivity].
  all: intros ->; discriminate.
Qed.

(** X3. When the texture query fails, [RenderTexture] still copies: the
    destination keeps the arguments [x] and [y], and neither its [w] nor its
    [h] is assigned. *)
Theorem RenderTexture_query_fails (texture renderer : ptr) (x y : Z)
    (wd : World) (tr : Trace) :
  answer_QueryTexture wd (List.length tr) texture = None ->
  Part001.RenderTexture texture renderer x y wd tr =
    (tt, tr ++ [EvQueryTexture texture None;
                EvRenderCopy renderer texture None
                  (Some (SDL_Rect.mk (Some x) (Some y) None None))]).
Proof.
  intros Hq. cbn. rewrite Hq. rewrite <- app_assoc. reflexivity.
Qed.

Lemma RenderTexture_query_fails_witness :
  Part001.RenderTexture (Some 4%nat) (Some 2%nat) 10 20 world_query_fails [] =
    (tt, [EvQueryTexture (Some 4%nat) None;
          EvRenderCopy (Some 2%nat) (Some 4%nat) None
            (Some (SDL_Rect.mk (Some 10) (Some 20) None None))]).
Proof.
  apply (RenderTexture_query_fails (Some 4%nat) (Some 2%nat) 10 20
           world_query_fails []).
  reflexivity.
Defined.

(* The three outcomes of [loadTexture], for any property of its result. *)
Lemma loadTexture_cases (load : string -> ptr -> SDL ptr) filename renderer wd tr
    (P : ptr * Trace -> Prop) :
  loadTexture_contract load filename renderer wd tr ->
  (forall e,
      P (None, tr ++ [EvLoadBMP filename None; EvGetError e;
                      EvWrite cerr ("LoadBMP error: " ++ e ++ endl)%string])) ->
  (forall s t,
      P (Some t, tr ++ [EvLoadBMP filename (Some s);
                        EvCreateTextureFromSurface renderer (Some s) (Some t);
                        EvFreeSurface (Some s)])) ->
  (forall s e,
      P (None, tr ++ [EvLoadBMP filename (Some s);
                      EvCreateTextureFromSurface renderer (Some s) None;
                      EvFreeSurface (Some s); EvGetError e;
                      EvWrite cerr ("LoadBMP error: " ++ e ++ endl)%string])) ->
  P (load filename renderer wd tr).
Proof.
  unfold loadTexture_contract. intros C H1 H2 H3.
  destruct (answer_LoadBMP wd (List.length tr) filename) as [s|].
  - destruct (answer_CreateTextureFromSurface wd _ renderer (Some s)) as [t|];
      rewrite C; [apply H2 | apply H3].
  - rewrite C. apply H1.
Qed.

(** X4. Called with a renderer that is held, [loadTexture] respects the
    discipline of handles whatever else is held, and all it changes is that
    the texture it returns, when not null, is now held: the buffer it
    decoded is released before it returns, on every path. *)
Theorem loadTexture_resources filename (r : handle) wd tr held :
  held_now (Renderer, r) held = true ->
  exists calls,
    snd (Part001.loadTexture filename (Some r) wd tr) = tr ++ calls /\
    discipline release_any held calls
    = Some (acquire Texture
              (fst (Part001.loadTexture filename (Some r) wd tr)) held).
Proof.
  intros Hr.
  assert (Hs : forall s, held_now (Renderer, r) ((Surface, s) :: held) = true)
    by (intros s; cbn; exact Hr).
  apply (loadTexture_cases Part001.loadTexture filename (Some r) wd tr);
    [apply Part001_loadTexture_contract | | | ].
  - intros e. eexists. split; [reflexivity | ]. reflexivity.
  - intros s t. eexists. split; [reflexivity | ].
    cbn -[held_now]. rewrite Hs.
    repeat (progress (cbn; rewrite ?Nat.eqb_refl)). reflexivity.
  - intros s e. eexists. split; [reflexivity | ].
    cbn -[held_now]. rewrite Hs.
    repeat (progress (cbn; rewrite ?Nat.eqb_refl)). reflexivity.
Qed.

Lemma loadTexture_resources_witness :
  exists calls,
    snd (Part001.loadTexture Part001.background_bmp (Some 2%nat) world_ok
           [EvInit 32 0]) = [EvInit 32 0] ++ calls /\
    discipline release_any [(Renderer, 2%nat); (Window, 1%nat); the_session] calls
    = Some (acquire Texture
              (fst (Part001.loadTexture Part001.background_bmp (Some 2%nat)
                      world_ok [EvInit 32 0]))
              [(Renderer, 2%nat); (Window, 1%nat); the_session]).
Proof.
  apply (loadTexture_resources Part001.background_bmp 2%nat world_ok [EvInit 32 0]
           [(Renderer, 2%nat); (Window, 1%nat); the_session]).
  reflexivity.
Defined.

(** X5. [loadTexture] makes exactly one decode call and at most one upload
    call.  It returns null exactly when it has written one line on [cerr],
    and that line starts with "LoadBMP error: " also when it is the upload
    that failed; when it returns a texture it writes nothing. *)
Theorem loadTexture_logs_iff_null filename renderer wd tr :
  exists calls,
    snd (Part001.loadTexture filename renderer wd tr) = tr ++ calls /\
    List.length (decodes calls) = 1%nat /\
    (List.length (uploads calls) <= 1)%nat /\
    (if is_null (fst (Part001.loadTexture filename renderer wd tr))
     then exists e,
            written calls = [(cerr, ("LoadBMP error: " ++ e ++ endl)%string)]
     else written calls = []).
Proof.
  apply (loadTexture_cases Part001.loadTexture filename renderer wd tr);
    [apply Part001_loadTexture_contract | | | ].
  - intros e. eexists. split; [reflexivity | ]. cbn. repeat split; try lia.
    exists e. reflexivity.
  - intros s t. eexists. split; [reflexivity | ]. cbn. repeat split; lia.
  - intros s e. eexists. split; [reflexivity | ]. cbn. repeat split; try lia.
    exists e. reflexivity.
Qed.

(** X6. In the two-texture program, when exactly one of the two textures is
    created, the run exits with the failure status without destroying it:
    that texture is the one handle still held at exit. *)
Theorem one_texture_leaks argc argv wd :
  List.length (created_textures (trace_of part_001 argc argv wd)) = 1%nat ->
  status_of part_001 argc argv wd = EXIT_FAILURE /\
  destroyed_textures (trace_of part_001 argc argv wd) = [] /\
  exists t,
    created_textures (trace_of part_001 argc argv wd) = [Some t] /\
    held_at_exit (trace_of part_001 argc argv wd) = Some [(Texture, t)].
Proof.
  unfold held_at_exit.
  remember part_001 as p eqn:Hp.
  run_cases p argc argv wd; try discriminate Hp; intros H; try discriminate H.
  all: split; [reflexivity | split; [reflexivity | ]].
  all: eexists; split; [reflexivity | ].
  all: handle_tests; reflexivity.
Qed.

Lemma one_texture_leaks_witness :
  status_of part_001 1 [] world_no_foreground = EXIT_FAILURE /\
  destroyed_textures (trace_of part_001 1 [] world_no_foreground) = [] /\
  exists t,
    created_textures (trace_of part_001 1 [] world_no_foreground) = [Some t] /\
    held_at_exit (trace_of part_001 1 [] world_no_foreground)
    = Some [(Texture, t)].
Proof.
  apply (one_texture_leaks 1 [] world_no_foreground). reflexivity.
Defined.

Lemma y_h_after_query (q : option (Z * Z)) (d : SDL_Rect.t) :
  SDL_Rect.y (store_dimensions SDL_Rect.set_w SDL_Rect.set_x q d) = SDL_Rect.y d /\
  SDL_Rect.h (store_dimensions SDL_Rect.set_w SDL_Rect.set_x q d) = SDL_Rect.h d.
Proof.
  unfold store_dimensions. destruct q as [[tw th]|]; split; reflexivity.
Qed.

(* [bH] keeps its initial 0: both out-pointers of the query are [&bW]. *)
Lemma bH_never_assigned (q : option (Z * Z)) :
  snd (store_dimensions Part001.set_first Part001.set_first q (0, 0)) = 0.
Proof.
  unfold store_dimensions. destruct q as [[tw th]|]; reflexivity.
Qed.

(** X7. In every fully successful run of the two-texture program, whatever
    the texture queries answer, the four background copies of each of the
    three frames have y = 0, and no copy of the run, background or
    foreground, has the h of its destination assigned. *)
Theorem copies_without_height argc argv wd :
  all_acquired (trace_of part_001 argc argv wd) = true ->
  exists y1 y2 y3,
    copy_y_h (trace_of part_001 argc argv wd)
    = frame_y_h y1 ++ frame_y_h y2 ++ frame_y_h y3.
Proof.
  remember part_001 as p eqn:Hp.
  run_cases p argc argv wd; try discriminate Hp; intros H;
    try rewrite Hinit in H; try discriminate H.
  repeat (rewrite (proj1 (y_h_after_query _ _))
          || rewrite (proj2 (y_h_after_query _ _))
          || rewrite bH_never_assigned).
  cbn. do 3 eexists. unfold frame_y_h. cbn. reflexivity.
Qed.

Lemma copies_without_height_witness :
  exists y1 y2 y3,
    copy_y_h (trace_of part_001 1 [] world_query_fails)
    = frame_y_h y1 ++ frame_y_h y2 ++ frame_y_h y3.
Proof.
  apply (copies_without_height 1 [] world_query_fails). reflexivity.
Defined.

Lemma foreground_position_value (iW iH : Z) :
  int_min <= iW <= int_max ->
  int_min <= iH <= int_max ->
  Part001.foreground_position iW iH = (320 - Z.quot iW 2, 240 - Z.quot iH 2).
Proof.
  intros HW HH.
  pose proof (quot_2_bounds iW HW) as BW.
  pose proof (quot_2_bounds iH HH) as BH.
  unfold Part001.foreground_position, int_sub, int_div.
  change (Z.quot Part001.SCREEN_WIDTH 2) with 320.
  change (Z.quot Part001.SCREEN_HEIGHT 2) with 240.
  rewrite (wrap_int_id 320), (wrap_int_id 240) by (unfold int_min, int_max; lia).
  rewrite (wrap_int_id (Z.quot iW 2)), (wrap_int_id (Z.quot iH 2))
    by (unfold int_min, int_max; lia).
  rewrite !wrap_int_id by (unfold int_min, int_max; lia).
  reflexivity.
Qed.

(** C4. In the two-texture program, for a foreground texture of width [iW]
    and height [iH] (any [int] values), the position computed before the
    foreground copy is [x = 320 - iW/2], [y = 240 - iH/2], the divisions
    truncating towards zero.  The frame loop computes it from what the query
    of the foreground stores into [iW] and [iH] and hands it to
    [RenderTexture]: after the ten calls for the background, every frame
    queries the foreground, and the destination of the foreground copy is
    what the query inside [RenderTexture] makes of a rectangle whose x and y
    are this position; its y is [240 - iH/2] in every case, and its x is
    [320 - iW/2] when that inner query stores nothing. *)
Theorem foreground_centered (iW iH : Z) :
  int_min <= iW <= int_max ->
  int_min <= iH <= int_max ->
  Part001.foreground_position iW iH = (320 - Z.quot iW 2, 240 - Z.quot iH 2) /\
  (forall (background foreground renderer : ptr) (i : Z) (wd : World) (tr : Trace),
      store_dimensions Part001.set_first Part001.set_second
        (answer_QueryTexture wd (10 + List.length tr) foreground) (0, 0)
      = (iW, iH) ->
      exists before destination,
        List.length before = 10%nat /\
        snd (Part001.frame background foreground renderer i wd tr)
        = tr ++ before ++
            [EvQueryTexture foreground
               (answer_QueryTexture wd (10 + List.length tr) foreground);
             EvQueryTexture foreground
               (answer_QueryTexture wd (11 + List.length tr) foreground);
             EvRenderCopy renderer foreground None (Some destination);
             EvRenderPresent renderer;
             EvDelay 1000] /\
        destination
        = store_dimensions SDL_Rect.set_w SDL_Rect.set_x
            (answer_QueryTexture wd (11 + List.length tr) foreground)
            (SDL_Rect.mk (Some (320 - Z.quot iW 2)) (Some (240 - Z.quot iH 2))
               None None) /\
        SDL_Rect.y destination = Some (240 - Z.quot iH 2) /\
        (answer_QueryTexture wd (11 + List.length tr) foreground = None ->
         SDL_Rect.x destination = Some (320 - Z.quot iW 2))).
Proof.
  intros HW HH.
  pose proof (foreground_position_value iW iH HW HH) as E.
  split; [exact E | ].
  intros background foreground renderer i wd tr Hq.
  cbn -[Z.sub Z.quot]. rewrite !length_snoc. cbn in Hq. rewrite Hq.
  cbn [fst snd]. rewrite E. cbn [fst snd].
  repeat rewrite <- app_assoc. cbn [app].
  match goal with
  | |- exists before destination, _ /\
         tr ++ ?e1 :: ?e2 :: ?e3 :: ?e4 :: ?e5 :: ?e6 :: ?e7 :: ?e8 :: ?e9
            :: ?e10 :: _ = _ /\ _ =>
      exists [e1; e2; e3; e4; e5; e6; e7; e8; e9; e10]
  end.
  eexists. split; [reflexivity | ]. split; [reflexivity | ].
  split; [reflexivity | ]. split.
  - rewrite (proj1 (y_h_after_query _ _)). reflexivity.
  - intros Hn. rewrite Hn. reflexivity.
Qed.

Lemma foreground_centered_witness :
  Part001.foreground_position 101 75 = (270, 203) /\
  exists before destination,
    List.length before = 10%nat /\
    snd (Part001.frame (Some 4%nat) (Some 7%nat) (Some 2%nat) 0
           (world_with 0 true true (fun _ => true) true (101, 75)) [])
    = [] ++ before ++
        [EvQueryTexture (Some 7%nat) (Some (101, 75));
         EvQueryTexture (Some 7%nat) (Some (101, 75));
         EvRenderCopy (Some 2%nat) (Some 7%nat) None (Some destination);
         EvRenderPresent (Some 2%nat);
         EvDelay 1000] /\
    destination = SDL_Rect.mk (Some 75) (Some 203) (Some 101) None /\
    SDL_Rect.y destination = Some 203 /\
    (Some (101, 75) = None -> SDL_Rect.x destination = Some 270).
Proof.
  assert (HW : int_min <= 101 <= int_max) by (unfold int_min, int_max; lia).
  assert (HH : int_min <= 75 <= int_max) by (unfold int_min, int_max; lia).
  split.
  - exact (proj1 (foreground_centered 101 75 HW HH)).
  - exact (proj2 (foreground_centered 101 75 HW HH)
             (Some 4%nat) (Some 7%nat) (Some 2%nat) 0
             (world_with 0 true true (fun _ => true) true (101, 75)) []
             eq_refl).
Defined.

(** X8. For a foreground no larger than the 640 by 480 screen, the computed
    position puts it wholly inside the screen, and centred to the pixel: on
    each axis the margin before it exceeds the margin after it by 0 or 1. *)
Theorem foreground_inside_screen (iW iH : Z) :
  0 <= iW <= Part001.SCREEN_WIDTH ->
  0 <= iH <= Part001.SCREEN_HEIGHT ->
  let x := fst (Part001.foreground_position iW iH) in
  let y := snd (Part001.foreground_position iW iH) in
  0 <= x /\ x + iW <= Part001.SCREEN_WIDTH /\
  0 <= y /\ y + iH <= Part001.SCREEN_HEIGHT /\
  0 <= x - (Part001.SCREEN_WIDTH - (x + iW)) <= 1 /\
  0 <= y - (Part001.SCREEN_HEIGHT - (y + iH)) <= 1.
Proof.
  unfold Part001.SCREEN_WIDTH, Part001.SCREEN_HEIGHT. intros HW HH.
  rewrite foreground_position_value by (unfold int_min, int_max; lia).
  cbn [fst snd].
  Z.quot_rem_to_equations. lia.
Qed.

Lemma foreground_inside_screen_witness :
  let x := fst (Part001.foreground_position 101 75) in
  let y := snd (Part001.foreground_position 101 75) in
  0 <= x /\ x + 101 <= Part001.SCREEN_WIDTH /\
  0 <= y /\ y + 75 <= Part001.SCREEN_HEIGHT /\
  0 <= x - (Part001.SCREEN_WIDTH - (x + 101)) <= 1 /\
  0 <= y - (Part001.SCREEN_HEIGHT - (y + 75)) <= 1.
Proof.
  apply (foreground_inside_screen 101 75);
    unfold Part001.SCREEN_WIDTH, Part001.SCREEN_HEIGHT; lia.
Defined.

(** X9. For a foreground more than one pixel larger than the screen on both
    axes, both computed coordinates are negative: nothing clamps them. *)
Theorem foreground_too_large (iW iH : Z) :
  Part001.SCREEN_WIDTH + 1 < iW <= int_max ->
  Part001.SCREEN_HEIGHT + 1 < iH <= int_max ->
  fst (Part001.foreground_position iW iH) < 0 /\
  snd (Part001.foreground_position iW iH) < 0.
Proof.
  unfold Part001.SCREEN_WIDTH, Part001.SCREEN_HEIGHT, int_max. intros HW HH.
  rewrite foreground_position_value by (unfold int_min, int_max; lia).
  cbn [fst snd].
  Z.quot_rem_to_equations. lia.
Qed.

Lemma foreground_too_large_witness :
  fst (Part001.foreground_position 1024 768) < 0 /\
  snd (Part001.foreground_position 1024 768) < 0.
Proof.
  apply (foreground_too_large 1024 768);
    unfold Part001.SCREEN_WIDTH, Part001.SCREEN_HEIGHT, int_max; lia.
Defined.

(** X10. The number of lines a run writes: in the one-texture programs one
    per failed acquisition, and at most one acquisition fails; in the
    two-texture program one per failed acquisition (at most two fail, one in
    each load) and one more, from [main], when a load failed. *)
Theorem diagnostics_counted p argc argv wd :
  List.length (written (trace_of p argc argv wd))
  = (count_failures (trace_of p argc argv wd)
     + match p with
       | part_001 => if load_failed (trace_of p argc argv wd) then 1 else 0
       | _ => 0
       end)%nat /\
  (count_failures (trace_of p argc argv wd)
   <= match p with part_001 => 2 | _ => 1 end)%nat.
Proof.
  unfold count_failures.
  run_cases p argc argv wd; try rewrite Hinit; cbn; split; lia.
Qed.

(** X11. Once the renderer is created, the run decodes each image file of
    its program once, in order - in the two-texture program the foreground
    also when the background has failed; before that it decodes nothing. *)
Theorem images_decoded p argc argv wd :
  map fst (decodes (trace_of p argc argv wd))
  = (if renderer_created (trace_of p argc argv wd) then image_files p else []).
Proof.
  run_cases p argc argv wd; reflexivity.
Qed.

(** X12. Between the first failed acquisition and the [SDL_GetError] that
    follows it, the programs make release calls only: none after a failed
    [SDL_Init] or [SDL_CreateWindow], and exactly the destruction of the
    window after a failed [SDL_CreateRenderer], so that the error is read
    after that destruction. *)
Theorem cleanup_before_error_read p argc argv wd :
  forallb is_release (between_failure_and_report (trace_of p argc argv wd))
  = true /\
  (forall e, first_failure (trace_of p argc argv wd) = Some e ->
             is_init_or_window e = true ->
             between_failure_and_report (trace_of p argc argv wd) = []) /\
  (forall window,
      window_of_failed_renderer (trace_of p argc argv wd) = Some window ->
      between_failure_and_report (trace_of p argc argv wd)
      = [EvDestroyWindow window]).
Proof.
  run_cases p argc argv wd; try rewrite Hinit; cbn.
  all: split; [reflexivity | split].
  all: try (intros e He Hk; injection He as <-; try discriminate Hk; reflexivity).
  all: try (intros e He; discriminate He).
  all: try (intros window Hw; injection Hw as <-; reflexivity).
Qed.
